(** * Macro-risk quadrant dashboard: a shallow embedding of
      [risk_quadrant_app.py] and the properties of its pipeline.

    The script is a Streamlit page that is re-run from top to bottom at
    every interaction.  Its stages are embedded in the order of the
    script: the loader [load_data], the two sidebar widgets, the row
    selection [selected_data], the pyplot calls that build the chart,
    and the detail table with its [get_quadrant] column.

    Numbers.  Spreadsheet cells are IEEE doubles.  A finite double is
    embedded as the rational it denotes, and the missing value as [NaN];
    the comparisons [>=] and [<] of the source are exact on doubles and
    false as soon as one side is NaN.  The arithmetic of the script
    ([(1 + t) / 2], [t / 2], [round(3)]) is embedded in exact rational
    arithmetic, without the rounding error of the float operations.

    Scope.  The category columns are float columns and every row has a
    date: a cell that holds text and a row whose date is blank are
    outside the model. *)

From Stdlib Require Import QArith Qround Lqa Ascii String Sorting.Sorted Sorting.Permutation.
From stdpp Require Import gmap strings list fin_maps.

Local Open Scope string_scope.

(** ** Cells and their comparisons *)

Inductive cell : Type :=
| Num (q : Q)
| NaN.

(** [x >= y] on floats. *)
Definition cell_ge (x y : cell) : bool :=
  match x, y with
  | Num a, Num b => Qle_bool b a
  | _, _ => false
  end.

(** [x < y] on floats. *)
Definition cell_lt (x y : cell) : bool :=
  match x, y with
  | Num a, Num b => negb (Qle_bool b a)
  | _, _ => false
  end.

(** ** The detail-table rows and the quadrant column *)

(** One row of [risk_data]: the columns 风险类别, 情绪值 and 关注度. *)
Record risk_row : Type := RiskRow {
  category : string;
  sentiment : cell;
  attention : cell
}.

Definition label_I : string := "Ⅰ - 市场强势信号".
Definition label_II : string := "Ⅱ - 市场恐慌/风险警报".
Definition label_III : string := "Ⅲ - 潜在风险未爆发".
Definition label_IV : string := "Ⅳ - 冷门利好".

(** [get_quadrant(row)]; the global [attention_threshold] it closes over
    is the first argument. *)
Definition get_quadrant (attention_threshold : Q) (row : risk_row) : string :=
  if cell_ge (sentiment row) (Num 0) && cell_ge (attention row) (Num attention_threshold)
  then label_I
  else if cell_lt (sentiment row) (Num 0) && cell_ge (attention row) (Num attention_threshold)
  then label_II
  else if cell_lt (sentiment row) (Num 0) && cell_lt (attention row) (Num attention_threshold)
  then label_III
  else label_IV.

Definition quadrant_labels : list string :=
  [label_I; label_II; label_III; label_IV].


(** ** Exceptions *)

(** A Python exception: its class name and [str(e)]. *)
Record exn : Type := Exn { exn_class : string; exn_str : string }.

Inductive result (A : Type) : Type :=
| Ok (a : A)
| Raise (e : exn).
Arguments Ok {A} a.
Arguments Raise {A} e.

Global Instance result_ret : MRet result := fun A a => Ok a.
Global Instance result_bind : MBind result := fun A B f m =>
  match m with
  | Ok a => f a
  | Raise e => Raise e
  end.

(** ** The observation table *)

(** A [datetime.date]. *)
Record date : Type := Date { year : nat; month : nat; day : nat }.

Global Instance date_eq_dec : EqDecision date.
Proof. solve_decision. Defined.

(** Chronological order of two dates, as [<=] on [datetime.date]. *)
Definition date_leb (d1 d2 : date) : bool :=
  if (year d1 <? year d2)%nat then true
  else if (year d2 <? year d1)%nat then false
  else if (month d1 <? month d2)%nat then true
  else if (month d2 <? month d1)%nat then false
  else (day d1 <=? day d2)%nat.

(** One row of the sheet [comp].  The [date] column is only ever read
    through [.dt.date], so it is embedded by its calendar date; the other
    columns are kept under their labels. *)
Record obs_row : Type := ObsRow {
  obs_date : date;
  obs_cells : gmap string cell
}.

Abbreviation DataFrame := (list obs_row).

(** [series[key]] on the selected row. *)
Definition getitem (row : obs_row) (key : string) : result cell :=
  match obs_cells row !! key with
  | Some c => Ok c
  | None => Raise (Exn "KeyError" key)
  end.

(** [frame.iloc[0]]. *)
Definition iloc0 {A : Type} (frame : list A) : result A :=
  match frame with
  | r :: _ => Ok r
  | [] => Raise (Exn "IndexError" "single positional indexer is out-of-bounds")
  end.

(** [df[df['date'].dt.date == selected_date].iloc[0]]; the selectbox
    yields [None] when it has no option to offer. *)
Definition selected_data (df : DataFrame) (selected_date : option date) : result obs_row :=
  iloc0 (filter (fun r => Some (obs_date r) = selected_date) df).

Definition risk_categories : list string :=
  ["利率"; "地缘政治"; "技术"; "政策"; "汇率"; "环境"; "社会"; "衰退"; "通胀"].

Definition sentiments (selected : obs_row) : result (list cell) :=
  mapM (fun cat => getitem selected (cat ++ "_情绪")) risk_categories.

Definition attentions (selected : obs_row) : result (list cell) :=
  mapM (fun cat => getitem selected (cat ++ "_关注度")) risk_categories.

(** ** The sidebar widgets *)

Record slider : Type := Slider {
  min_value : Q;
  max_value : Q;
  value : Q;
  step : Q
}.

Definition attention_threshold_slider : slider :=
  {| min_value := 0; max_value := 1; value := 3 # 10; step := 5 # 100 |}.

(** [Series.unique()]: the distinct values in order of first appearance. *)
Fixpoint unique_from {A : Type} `{EqDecision A} (seen : list A) (l : list A) : list A :=
  match l with
  | [] => []
  | x :: l' =>
      if bool_decide (x ∈ seen) then unique_from seen l'
      else x :: unique_from (x :: seen) l'
  end.

Definition unique {A : Type} `{EqDecision A} (l : list A) : list A := unique_from [] l.

Definition available_dates (df : DataFrame) : list date :=
  unique (map obs_date df).

(** The [index] argument of the selectbox, [len(available_dates)-1]. *)
Definition selectbox_index (df : DataFrame) : Z :=
  Z.of_nat (length (available_dates df)) - 1.

(** The option the selectbox shows before the user picks another one. *)
Definition default_selected_date (df : DataFrame) : option date :=
  if (selectbox_index df <? 0)%Z then None
  else available_dates df !! Z.to_nat (selectbox_index df).

(** The latest of a list of dates. *)
Definition most_recent (ds : list date) : option date :=
  foldr (fun d acc =>
           match acc with
           | None => Some d
           | Some m => if date_leb m d then Some d else Some m
           end) None ds.

(** ** The loader *)

Definition slash : ascii := "/"%char.

Definition startswith_slash (p : string) : bool :=
  match p with
  | String c _ => bool_decide (c = slash)
  | EmptyString => false
  end.

Fixpoint endswith_slash (p : string) : bool :=
  match p with
  | EmptyString => false
  | String c EmptyString => bool_decide (c = slash)
  | String _ p' => endswith_slash p'
  end.

(** [posixpath.join(a, b)]. *)
Definition os_path_join (a b : string) : string :=
  if startswith_slash b then b
  else if bool_decide (a = "") || endswith_slash a then a ++ b
  else a ++ "/" ++ b.

(** [p[:p.rfind('/') + 1]]. *)
Fixpoint upto_last_slash (p : string) : string :=
  match p with
  | EmptyString => ""
  | String c p' =>
      match upto_last_slash p' with
      | EmptyString => if bool_decide (c = slash) then "/" else ""
      | h => String c h
      end
  end.

(** [s.rstrip('/')]. *)
Fixpoint rstrip_slash (s : string) : string :=
  match s with
  | EmptyString => ""
  | String c s' =>
      match rstrip_slash s' with
      | EmptyString => if bool_decide (c = slash) then "" else String c ""
      | t => String c t
      end
  end.

(** [posixpath.dirname(p)]: a head made only of slashes is kept as it is. *)
Definition os_path_dirname (p : string) : string :=
  let head := upto_last_slash p in
  match rstrip_slash head with
  | EmptyString => head
  | stripped => stripped
  end.

(** What the script sees of the machine it runs on. *)
Record os_env : Type := OsEnv {
  getcwd : string;                       (* os.getcwd() *)
  dunder_file : string;                  (* __file__ *)
  existing : gset string;                (* absolute paths that exist *)
  listdir : list string;                 (* os.listdir() *)
  read_comp : string -> result DataFrame (* read_excel(path, 'comp') and to_datetime *)
}.

(** [os.path.exists(path)]: a relative path is resolved from the
    working directory. *)
Definition os_path_exists (env : os_env) (path : string) : bool :=
  bool_decide (os_path_join (getcwd env) path ∈ existing env).

Definition possible_paths (env : os_env) : list string :=
  [ "index.xlsx";
    os_path_join (os_path_dirname (dunder_file env)) "index.xlsx";
    "/mount/src/macrorisk/index.xlsx" ].

(** What the page shows. *)
Inductive st_element : Type :=
| st_write (args : list string)
| st_error (body : string).

Definition newline : string := String (ascii_of_nat 10) "".

(** The [for path in possible_paths] loop: at the first path that exists
    the file is announced and read, and the function returns. *)
Fixpoint probe (env : os_env) (paths : list string)
  : option (list st_element * result DataFrame) :=
  match paths with
  | [] => None
  | path :: rest =>
      if os_path_exists env path
      then Some ([st_write ["找到文件路径: " ++ path]], read_comp env path)
      else probe env rest
  end.

(** [load_data()]: the page elements it emits and its return value
    ([None] is Python's). *)
Definition load_data (env : os_env) : list st_element * option DataFrame :=
  match probe env (possible_paths env) with
  | Some (shown, Ok df) => (shown, Some df)
  | Some (shown, Raise e) =>
      (app shown [ st_error ("读取数据时出错：" ++ exn_str e);
                   st_write ["当前工作目录："; getcwd env];
                   st_write ("目录内容：" :: listdir env) ],
       None)
  | None =>
      ([st_error ("未能找到数据文件。尝试过的路径：" ++
                  String.concat newline (possible_paths env))],
       None)
  end.

(** How the top of the script ends: [st.stop()] or the rest of the page. *)
Inductive startup : Type :=
| Halted
| Loaded (df : DataFrame).

(** [df = load_data()] followed by [if df is None: st.stop()]. *)
Definition start_session (env : os_env) : list st_element * startup :=
  let '(shown, df) := load_data env in
  match df with
  | None => (shown, Halted)
  | Some df => (shown, Loaded df)
  end.

(** ** pyplot: figures, the global state and the chart *)

Record annotation : Type := Annotation {
  an_text : string;
  an_xy : cell * cell;
  an_xytext : Z * Z          (* offset in points *)
}.

Record text : Type := Text {
  text_x : Q;
  text_y : Q;
  text_s : string
}.

(** The content of a figure with one pair of axes. *)
Record figure : Type := Figure {
  scatter_xy : list (cell * cell);
  annotations : list annotation;
  hlines : list Q;
  vlines : list Q;
  xlim : option (Q * Q);
  ylim : option (Q * Q);
  xlabel : option string;
  ylabel : option string;
  texts : list text;
  title : option string;
  grid : bool
}.

Definition empty_figure : figure :=
  Figure [] [] [] [] None None None None [] None false.

Global Instance figure_inhabited : Inhabited figure := populate empty_figure.

Inductive rc_value : Type :=
| RcList (l : list string)
| RcBool (b : bool).

(** The state that outlives one run of the script: matplotlib's
    [rcParams] and the figures pyplot keeps open (the last one is the
    current figure). *)
Record world : Type := World {
  rcParams : gmap string rc_value;
  figures : list figure
}.

(** Script fragments: they read and write the world and may raise. *)
Definition M (A : Type) : Type := world -> result A * world.

Definition ret {A : Type} (a : A) : M A := fun w => (Ok a, w).

Definition bind {A B : Type} (m : M A) (k : A -> M B) : M B :=
  fun w =>
    match m w with
    | (Ok a, w') => k a w'
    | (Raise e, w') => (Raise e, w')
    end.

Definition lift {A : Type} (r : result A) : M A := fun w => (r, w).

Notation "'let*' x ':=' m 'in' k" := (bind m (fun x => k))
  (at level 10, x name, m at level 100, k at level 200).
Notation "m ';;' k" := (bind m (fun _ => k))
  (at level 100, k at level 200, right associativity).

(** [plt.subplots()]: a new figure, which becomes the current one; the
    value is the handle [fig]. *)
Definition plt_subplots : M nat :=
  fun w => (Ok (length (figures w)),
            World (rcParams w) (app (figures w) [empty_figure])).

(** [plt.rcParams[key] = v]. *)
Definition rc_set (key : string) (v : rc_value) : M unit :=
  fun w => (Ok tt, World (<[key := v]> (rcParams w)) (figures w)).

(** A pyplot call acts on the current figure, and opens one when there
    is none. *)
Definition on_gcf (f : figure -> figure) : M unit :=
  fun w =>
    (Ok tt,
     World (rcParams w)
           match figures w with
           | [] => [f empty_figure]
           | figs => alter f (pred (length figs)) figs
           end).

(** [st.pyplot(fig)]: the figure behind the handle is shown. *)
Definition st_pyplot (fig : nat) : M figure :=
  fun w => (Ok (figures w !!! fig), w).

(** What each pyplot call of the script adds to a figure. *)

Definition add_scatter (points : list (cell * cell)) (f : figure) : figure :=
  Figure (app (scatter_xy f) points) (annotations f) (hlines f) (vlines f)
         (xlim f) (ylim f) (xlabel f) (ylabel f) (texts f) (title f) (grid f).

Definition add_annotations (anns : list annotation) (f : figure) : figure :=
  Figure (scatter_xy f) (app (annotations f) anns) (hlines f) (vlines f)
         (xlim f) (ylim f) (xlabel f) (ylabel f) (texts f) (title f) (grid f).

Definition add_hline (y : Q) (f : figure) : figure :=
  Figure (scatter_xy f) (annotations f) (app (hlines f) [y]) (vlines f)
         (xlim f) (ylim f) (xlabel f) (ylabel f) (texts f) (title f) (grid f).

Definition add_vline (x : Q) (f : figure) : figure :=
  Figure (scatter_xy f) (annotations f) (hlines f) (app (vlines f) [x])
         (xlim f) (ylim f) (xlabel f) (ylabel f) (texts f) (title f) (grid f).

Definition set_xlim (lo hi : Q) (f : figure) : figure :=
  Figure (scatter_xy f) (annotations f) (hlines f) (vlines f)
         (Some (lo, hi)) (ylim f) (xlabel f) (ylabel f) (texts f) (title f) (grid f).

Definition set_ylim (lo hi : Q) (f : figure) : figure :=
  Figure (scatter_xy f) (annotations f) (hlines f) (vlines f)
         (xlim f) (Some (lo, hi)) (xlabel f) (ylabel f) (texts f) (title f) (grid f).

Definition set_xlabel (s : string) (f : figure) : figure :=
  Figure (scatter_xy f) (annotations f) (hlines f) (vlines f)
         (xlim f) (ylim f) (Some s) (ylabel f) (texts f) (title f) (grid f).

Definition set_ylabel (s : string) (f : figure) : figure :=
  Figure (scatter_xy f) (annotations f) (hlines f) (vlines f)
         (xlim f) (ylim f) (xlabel f) (Some s) (texts f) (title f) (grid f).

Definition add_text (c : text) (f : figure) : figure :=
  Figure (scatter_xy f) (annotations f) (hlines f) (vlines f)
         (xlim f) (ylim f) (xlabel f) (ylabel f) (app (texts f) [c]) (title f)
         (grid f).

Definition set_title (s : string) (f : figure) : figure :=
  Figure (scatter_xy f) (annotations f) (hlines f) (vlines f)
         (xlim f) (ylim f) (xlabel f) (ylabel f) (texts f) (Some s) (grid f).

Definition set_grid (b : bool) (f : figure) : figure :=
  Figure (scatter_xy f) (annotations f) (hlines f) (vlines f)
         (xlim f) (ylim f) (xlabel f) (ylabel f) (texts f) (title f) b.

Definition plt_scatter (xs ys : list cell) : M unit := on_gcf (add_scatter (zip xs ys)).

Definition plt_annotate (s : string) (xy : cell * cell) (xytext : Z * Z) : M unit :=
  on_gcf (add_annotations [Annotation s xy xytext]).

Definition plt_axhline (y : Q) : M unit := on_gcf (add_hline y).

Definition plt_axvline (x : Q) : M unit := on_gcf (add_vline x).

Definition plt_xlim (lo hi : Q) : M unit := on_gcf (set_xlim lo hi).

Definition plt_ylim (lo hi : Q) : M unit := on_gcf (set_ylim lo hi).

Definition plt_xlabel (s : string) : M unit := on_gcf (set_xlabel s).

Definition plt_ylabel (s : string) : M unit := on_gcf (set_ylabel s).

Definition plt_text (x y : Q) (s : string) : M unit := on_gcf (add_text (Text x y s)).

Definition plt_title (s : string) : M unit := on_gcf (set_title s).

Definition plt_grid (b : bool) : M unit := on_gcf (set_grid b).

(** [l[i]] for [i >= 0]. *)
Definition index {A : Type} (l : list A) (i : nat) : result A :=
  match l !! i with
  | Some x => Ok x
  | None => Raise (Exn "IndexError" "list index out of range")
  end.

(** The low [width] decimal digits of [n], high digit first. *)
Fixpoint zfill (width n : nat) : string :=
  match width with
  | O => ""
  | S w => zfill w (n / 10) ++ String (ascii_of_nat (48 + n mod 10)) ""
  end.

(** [d.strftime("%Y-%m-%d")]; a [datetime.date] has a year of at most
    four digits and a month and day of at most two. *)
Definition strftime_Ymd (d : date) : string :=
  zfill 4 (year d) ++ "-" ++ zfill 2 (month d) ++ "-" ++ zfill 2 (day d).

(** The [for i, txt in enumerate(risk_categories)] loop, from index [i]. *)
Fixpoint annotate_from (i : nat) (cats : list string) (xs ys : list cell) : M unit :=
  match cats with
  | [] => ret tt
  | txt :: rest =>
      let* x := lift (index xs i) in
      let* y := lift (index ys i) in
      plt_annotate txt (x, y) (5, 5)%Z ;;
      annotate_from (S i) rest xs ys
  end.

(** The pyplot calls of the script, from [plt.scatter] to [plt.grid]. *)
Definition draw_chart (xs ys : list cell) (attention_threshold : Q)
    (selected_date : option date) : M unit :=
  plt_scatter xs ys ;;
  annotate_from 0 risk_categories xs ys ;;
  plt_axhline attention_threshold ;;
  plt_axvline 0 ;;
  plt_xlim (-1) 1 ;;
  plt_ylim 0 (11 # 10) ;;
  plt_xlabel "情绪值" ;;
  plt_ylabel "关注度" ;;
  plt_text (1 # 2) ((1 + attention_threshold) / 2) ("市场强势信号" ++ newline ++ "(Ⅰ)") ;;
  plt_text (- (1 # 2)) ((1 + attention_threshold) / 2)
           ("市场恐慌/风险警报" ++ newline ++ "(Ⅱ)") ;;
  plt_text (- (1 # 2)) (attention_threshold / 2) ("潜在风险未爆发" ++ newline ++ "(Ⅲ)") ;;
  plt_text (1 # 2) (attention_threshold / 2) ("冷门利好" ++ newline ++ "(Ⅳ)") ;;
  let* stamp :=
    lift match selected_date with
         | Some d => Ok (strftime_Ymd d)
         | None => Raise (Exn "AttributeError"
                              "'NoneType' object has no attribute 'strftime'")
         end in
  plt_title ("宏观风险象限图（日期: " ++ stamp ++ "）") ;;
  plt_grid true.

(** ** The detail table *)

(** [pd.DataFrame({...})] from the three columns, which the script
    builds with one entry per category. *)
Fixpoint risk_frame (cats : list string) (xs ys : list cell) : list risk_row :=
  match cats, xs, ys with
  | c :: cats', x :: xs', y :: ys' => RiskRow c x y :: risk_frame cats' xs' ys'
  | _, _, _ => []
  end.

(** The place of one sort key before another under
    [ascending=False, na_position='last']: [Lt] when the first key comes
    first, [Eq] on a tie. *)
Definition key_order (x y : cell) : comparison :=
  match x, y with
  | Num a, Num b => (b ?= a)%Q
  | Num _, NaN => Lt
  | NaN, Num _ => Gt
  | NaN, NaN => Eq
  end.

(** The keys [by=['关注度', '情绪值']], the first one deciding. *)
Definition row_order (r1 r2 : risk_row) : comparison :=
  match key_order (attention r1) (attention r2) with
  | Eq => key_order (sentiment r1) (sentiment r2)
  | c => c
  end.

Fixpoint insert_row (r : risk_row) (sorted : list risk_row) : list risk_row :=
  match sorted with
  | [] => [r]
  | r' :: rest =>
      match row_order r r' with
      | Gt => r' :: insert_row r rest
      | _ => r :: sorted
      end
  end.

(** [sort_values(by=['关注度', '情绪值'], ascending=[False, False])]: a
    stable sort, rows that tie on both keys keep their order. *)
Definition sort_values (rows : list risk_row) : list risk_row :=
  foldr insert_row [] rows.

(** [numpy.rint]: the nearest integer, halves going to the even one. *)
Definition rint (q : Q) : Z :=
  let f := Qfloor q in
  match (q - inject_Z f ?= 1 # 2)%Q with
  | Lt => f
  | Gt => (f + 1)%Z
  | Eq => if Z.even f then f else (f + 1)%Z
  end.

(** [Series.round(3)] on one cell: [rint(x * 1000) / 1000]. *)
Definition round3 (c : cell) : cell :=
  match c with
  | Num q => Num (Qred (inject_Z (rint (q * 1000)) / 1000))
  | NaN => NaN
  end.

(** A row of [formatted_risk_data] once the two columns are rounded. *)
Definition round_row (r : risk_row) : risk_row :=
  RiskRow (category r) (round3 (sentiment r)) (round3 (attention r)).

(** A row of the table that is displayed, with the column 所属象限. *)
Record detail_row : Type := DetailRow {
  shown_category : string;
  shown_sentiment : cell;
  shown_attention : cell;
  shown_quadrant : string
}.

(** [formatted_risk_data]: the sorted frame is copied, its two numeric
    columns are rounded, and [get_quadrant] is applied to each row of the
    result. *)
Definition formatted_risk_data (attention_threshold : Q) (risk_data : list risk_row)
  : list detail_row :=
  map (fun row =>
         DetailRow (category row) (sentiment row) (attention row)
                   (get_quadrant attention_threshold row))
      (map round_row risk_data).

(** The table handed to [st.dataframe]. *)
Definition detail_table (attention_threshold : Q) (xs ys : list cell) : list detail_row :=
  formatted_risk_data attention_threshold
    (sort_values (risk_frame risk_categories xs ys)).

(** ** One run of the page below the widgets *)

Definition render_chart (xs ys : list cell) (attention_threshold : Q)
    (selected_date : option date) : M figure :=
  let* fig := plt_subplots in
  rc_set "font.sans-serif" (RcList ["Arial Unicode MS"]) ;;
  rc_set "axes.unicode_minus" (RcBool false) ;;
  draw_chart xs ys attention_threshold selected_date ;;
  st_pyplot fig.

(** Lines 62 to 137: the row is selected, the chart is drawn and shown,
    the table is built and shown. *)
Definition pipeline (df : DataFrame) (selected_date : option date)
    (attention_threshold : Q) : M (figure * list detail_row) :=
  let* selected := lift (selected_data df selected_date) in
  let* xs := lift (sentiments selected) in
  let* ys := lift (attentions selected) in
  let* shown := render_chart xs ys attention_threshold selected_date in
  ret (shown, detail_table attention_threshold xs ys).

(** ** Sample data *)

(** A row of cells from the nine sentiments and the nine attentions. *)
Definition cells_of (xs ys : list cell) : gmap string cell :=
  list_to_map
    (app (zip (map (fun cat => cat ++ "_情绪") risk_categories) xs)
         (zip (map (fun cat => cat ++ "_关注度") risk_categories) ys)).

Definition day1 : date := Date 2024 1 1.
Definition day2 : date := Date 2024 1 2.

Definition sample_sentiments : list cell :=
  [Num (4 # 10); Num (- (1 # 10000)); Num (- (2 # 10)); Num 0; Num (1 # 10);
   Num (3 # 10); Num (9 # 10); Num (- (5 # 10)); Num (1 # 10)].

Definition sample_attentions : list cell :=
  [Num (5 # 10); Num (5 # 10); Num (1 # 10); Num (3 # 10); Num (5 # 10);
   Num (5 # 10); Num (2 # 10); Num (2996 # 10000); Num (7 # 10)].

Definition sample_row : obs_row := ObsRow day1 (cells_of sample_sentiments sample_attentions).

Definition empty_world : world := World ∅ [].

Definition sample_frame : list risk_row :=
  risk_frame risk_categories sample_sentiments sample_attentions.

(** A row in which the sentiment of 利率 is missing. *)
Definition nan_sentiments : list cell :=
  [NaN; Num (1 # 10); Num (- (2 # 10)); Num 0; Num (1 # 10);
   Num (3 # 10); Num (9 # 10); Num (- (5 # 10)); Num (1 # 10)].

Definition nan_row : obs_row := ObsRow day1 (cells_of nan_sentiments sample_attentions).

(** A machine on which only the deployment copy of the workbook exists. *)
Definition deployed_env : os_env :=
  OsEnv "/home/analyst" "/app/macrorisk/risk_quadrant_app.py"
        {[ "/mount/src/macrorisk/index.xlsx" ]} ["notes.txt"]
        (fun _ => Ok [sample_row]).

(** A machine without any copy of the workbook. *)
Definition bare_env : os_env :=
  OsEnv "/home/analyst" "/app/macrorisk/risk_quadrant_app.py" ∅ ["notes.txt"]
        (fun _ => Ok [sample_row]).

(** ** The conditions of the four branches, on numbers *)

Definition guard_I (t s a : Q) : Prop := (0 <= s)%Q /\ (t <= a)%Q.
Definition guard_II (t s a : Q) : Prop := (s < 0)%Q /\ (t <= a)%Q.
Definition guard_III (t s a : Q) : Prop := (s < 0)%Q /\ (a < t)%Q.
Definition guard_IV (t s a : Q) : Prop := (0 <= s)%Q /\ (a < t)%Q.

(** ** The order of the detail table *)





(** ** Reading a decimal numeral *)

(** The number written by a string of decimal digits. *)
Definition decimal_value (s : string) : nat :=
  fold_left (fun acc c => 10 * acc + (nat_of_ascii c - 48))
            (list_ascii_of_string s) 0.

(** ** The effect of drawing calls *)

(** [m] never raises and changes the current figure by [g], leaving the
    other figures and [rcParams] as they are. *)
Definition acts_as (m : M unit) (g : figure -> figure) : Prop :=
  forall (rc : gmap string rc_value) (figs : list figure) (f : figure),
    m (World rc (app figs [f])) = (Ok tt, World rc (app figs [g f])).

(** ** Vocabulary of the further properties *)

(** [d1 <= d2] on dates. *)
Definition date_le (d1 d2 : date) : Prop := date_leb d1 d2 = true.

(** The path contains a slash. *)
Fixpoint has_slash (p : string) : bool :=
  match p with
  | EmptyString => false
  | String c p' => bool_decide (c = slash) || has_slash p'
  end.

(** A machine on which the workbook of the working directory exists but
    cannot be read, while the deployment copy is sound. *)
Definition broken_env : os_env :=
  OsEnv "/home/analyst" "/app/macrorisk/risk_quadrant_app.py"
        {[ "/home/analyst/index.xlsx"; "/mount/src/macrorisk/index.xlsx" ]}
        ["index.xlsx"]
        (fun path =>
           if bool_decide (path = "index.xlsx")
           then Raise (Exn "ValueError" "Worksheet named 'comp' not found")
           else Ok [sample_row]).

(** * Properties *)

(** ** The classifier *)

Lemma cell_ge_Num (a b : Q) : cell_ge (Num a) (Num b) = true <-> (b <= a)%Q.
Proof. simpl. apply Qle_bool_iff. Qed.

Lemma cell_lt_Num (a b : Q) : cell_lt (Num a) (Num b) = true <-> (a < b)%Q.
Proof.
  simpl. rewrite negb_true_iff. split.
  - intros H. apply Qnot_le_lt. intros Hle.
    apply Qle_bool_iff in Hle. congruence.
  - intros H. destruct (Qle_bool b a) eqn:E; [|reflexivity].
    apply Qle_bool_iff in E. exfalso. eapply Qlt_not_le; eauto.
Qed.

Lemma cell_ge_false_Num (a b : Q) : cell_ge (Num a) (Num b) = false <-> (a < b)%Q.
Proof.
  rewrite <- cell_lt_Num. simpl. rewrite negb_true_iff. reflexivity.
Qed.

Lemma quadrant_labels_NoDup : NoDup quadrant_labels.
Proof. apply (bool_decide_unpack _). vm_compute. exact I. Qed.

Lemma get_quadrant_in_labels (t : Q) (row : risk_row) :
  get_quadrant t row ∈ quadrant_labels.
Proof.
  unfold get_quadrant, quadrant_labels.
  repeat match goal with |- context [if ?b then _ else _] => destruct b end;
    set_solver.
Qed.

(** On numbers the classifier follows the two comparisons it makes. *)
Lemma get_quadrant_Num (t s a : Q) (cat : string) :
  get_quadrant t (RiskRow cat (Num s) (Num a)) =
  match Qle_bool 0 s, Qle_bool t a with
  | true, true => label_I
  | false, true => label_II
  | false, false => label_III
  | true, false => label_IV
  end.
Proof.
  unfold get_quadrant. simpl.
  destruct (Qle_bool 0 s), (Qle_bool t a); reflexivity.
Qed.

Lemma Qle_bool_false (x y : Q) : Qle_bool x y = false <-> (y < x)%Q.
Proof.
  split.
  - intros H. apply Qnot_le_lt. intros Hle. apply Qle_bool_iff in Hle. congruence.
  - intros H. destruct (Qle_bool x y) eqn:E; [|reflexivity].
    apply Qle_bool_iff in E. exfalso. eapply Qlt_not_le; eauto.
Qed.

(** C1. The classifier is total: on every row, missing values included,
    it returns one of the four labels, which are pairwise distinct.  On
    numbers exactly one of the four branch conditions holds, and it is the
    one whose label is returned. *)
Theorem get_quadrant_total_exclusive (t : Q) :
  (forall row, get_quadrant t row ∈ quadrant_labels) /\
  NoDup quadrant_labels /\
  forall (cat : string) (s a : Q),
    let q := get_quadrant t (RiskRow cat (Num s) (Num a)) in
    (guard_I t s a /\ q = label_I /\
       ~ guard_II t s a /\ ~ guard_III t s a /\ ~ guard_IV t s a) \/
    (guard_II t s a /\ q = label_II /\
       ~ guard_I t s a /\ ~ guard_III t s a /\ ~ guard_IV t s a) \/
    (guard_III t s a /\ q = label_III /\
       ~ guard_I t s a /\ ~ guard_II t s a /\ ~ guard_IV t s a) \/
    (guard_IV t s a /\ q = label_IV /\
       ~ guard_I t s a /\ ~ guard_II t s a /\ ~ guard_III t s a).
Proof.
  split; [apply get_quadrant_in_labels|].
  split; [apply quadrant_labels_NoDup|].
  intros cat s a q. subst q. rewrite get_quadrant_Num.
  unfold guard_I, guard_II, guard_III, guard_IV.
  destruct (Qle_bool 0 s) eqn:Hs, (Qle_bool t a) eqn:Ha;
    try apply Qle_bool_iff in Hs; try apply Qle_bool_iff in Ha;
    try apply Qle_bool_false in Hs; try apply Qle_bool_false in Ha.
  - left. repeat split; try assumption; intros [H1 H2];
      (eapply Qlt_not_le; [exact H1 | assumption]) ||
      (eapply Qlt_not_le; [exact H2 | assumption]).
  - right; right; right. repeat split; try assumption; intros [H1 H2];
      (eapply Qlt_not_le; [exact H1 | assumption]) ||
      (eapply Qlt_not_le; [exact Ha | assumption]).
  - right; left. repeat split; try assumption; intros [H1 H2];
      (eapply Qlt_not_le; [exact Hs | assumption]) ||
      (eapply Qlt_not_le; [exact H2 | assumption]).
  - right; right; left. repeat split; try assumption; intros [H1 H2];
      (eapply Qlt_not_le; [exact Hs | assumption]) ||
      (eapply Qlt_not_le; [exact Ha | assumption]).
Qed.

(** C2. Ties go to the non-negative and to the high-attention branch:
    a sentiment of 0 with an attention equal to the threshold is in
    quadrant I, and any negative sentiment (such as -0.0001) with an
    attention equal to the threshold is in quadrant II. *)
Theorem get_quadrant_ties (t : Q) (cat : string) :
  get_quadrant t (RiskRow cat (Num 0) (Num t)) = label_I /\
  get_quadrant t (RiskRow cat (Num (- (1 # 10000))) (Num t)) = label_II /\
  forall s : Q, (s < 0)%Q -> get_quadrant t (RiskRow cat (Num s) (Num t)) = label_II.
Proof.
  assert (Ht : Qle_bool t t = true) by (apply Qle_bool_iff, Qle_refl).
  assert (Hneg : forall s : Q, (s < 0)%Q ->
            get_quadrant t (RiskRow cat (Num s) (Num t)) = label_II).
  { intros s Hs. rewrite get_quadrant_Num, Ht.
    apply Qle_bool_false in Hs. rewrite Hs. reflexivity. }
  split; [|split].
  - rewrite get_quadrant_Num, Ht. reflexivity.
  - apply Hneg. reflexivity.
  - exact Hneg.
Qed.

Lemma get_quadrant_ties_witness :
  (- (1 # 3) < 0)%Q /\
  get_quadrant (3 # 10) (RiskRow "利率" (Num (- (1 # 3))) (Num (3 # 10))) = label_II.
Proof.
  split; [reflexivity|].
  apply (proj2 (proj2 (get_quadrant_ties (3 # 10) "利率"))). reflexivity.
Defined.

(** ** The order of the detail table *)









Lemma insert_row_perm (r : risk_row) (l : list risk_row) :
  Permutation (r :: l) (insert_row r l).
Proof.
  induction l as [|r' l IH]; simpl.
  - apply Permutation_refl.
  - destruct (row_order r r'); try apply Permutation_refl.
    eapply perm_trans; [apply perm_swap|]. apply perm_skip, IH.
Qed.

Lemma sort_values_perm (rows : list risk_row) :
  Permutation rows (sort_values rows).
Proof.
  induction rows as [|r rows IH]; simpl.
  - apply perm_nil.
  - eapply perm_trans; [apply perm_skip, IH|]. apply insert_row_perm.
Qed.





Lemma formatted_categories (t : Q) (l : list risk_row) :
  map shown_category (formatted_risk_data t l) = map category l.
Proof.
  unfold formatted_risk_data. induction l as [|r l IH]; simpl; [reflexivity|].
  f_equal. exact IH.
Qed.


(** ** The data selector *)

Lemma filter_no_match (df : DataFrame) (d : option date) :
  Forall (fun r => Some (obs_date r) <> d) df ->
  filter (fun r => Some (obs_date r) = d) df = [].
Proof.
  induction 1 as [|r df Hr Hdf IH]; [reflexivity|].
  rewrite filter_cons_False by exact Hr. exact IH.
Qed.

(** C6, as the code has it.  The selector returns the first row of the
    table whose date is the selected one, whatever follows it; when no
    row has that date it fails with the [IndexError] of the positional
    access [.iloc[0]] on an empty frame, which no test precedes. *)
Theorem selected_data_first_match (df : DataFrame) (d : option date) :
  (forall (pre : list obs_row) (r : obs_row) (post : list obs_row),
      df = app pre (r :: post) ->
      Forall (fun r' => Some (obs_date r') <> d) pre ->
      Some (obs_date r) = d ->
      selected_data df d = Ok r) /\
  (Forall (fun r' => Some (obs_date r') <> d) df ->
   selected_data df d =
     Raise (Exn "IndexError" "single positional indexer is out-of-bounds")).
Proof.
  unfold selected_data. split.
  - intros pre r post -> Hpre Hr.
    rewrite filter_app, (filter_no_match _ _ Hpre). simpl.
    rewrite filter_cons_True by exact Hr. reflexivity.
  - intros Hnone. rewrite (filter_no_match _ _ Hnone). reflexivity.
Qed.

Lemma selected_data_first_match_witness :
  selected_data [ObsRow day2 ∅; sample_row; nan_row] (Some day1) = Ok sample_row /\
  selected_data [ObsRow day2 ∅] (Some day1) =
    Raise (Exn "IndexError" "single positional indexer is out-of-bounds").
Proof.
  split.
  - apply (proj1 (selected_data_first_match _ (Some day1))
                 [ObsRow day2 ∅] sample_row [nan_row]).
    + reflexivity.
    + repeat constructor. discriminate.
    + reflexivity.
  - apply (proj2 (selected_data_first_match [ObsRow day2 ∅] (Some day1))).
    repeat constructor. discriminate.
Defined.

(** C6, counterexample.  On a table without the selected date the
    failure is an [IndexError], not a [NotFound]. *)
Lemma selected_data_raises_IndexError :
  exists e : exn,
    selected_data [ObsRow day2 ∅] (Some day1) = Raise e /\
    exn_class e = "IndexError" /\
    exn_class e <> "NotFound".
Proof.
  eexists. split; [reflexivity|]. split; [reflexivity|]. discriminate.
Qed.

Lemma selected_data_None (df : DataFrame) :
  selected_data df None =
    Raise (Exn "IndexError" "single positional indexer is out-of-bounds").
Proof.
  unfold selected_data. rewrite filter_no_match; [reflexivity|].
  apply Forall_forall. intros r _. discriminate.
Qed.

(** ** The widgets *)

Lemma unique_from_elem {A : Type} `{EqDecision A} (seen l : list A) (x : A) :
  x ∈ unique_from seen l <-> x ∈ l /\ x ∉ seen.
Proof.
  revert seen. induction l as [|y l IH]; intros seen; simpl.
  - rewrite elem_of_nil. tauto.
  - case_bool_decide as Hy.
    + rewrite IH, elem_of_cons. split.
      * intros [Hl Hs]. auto.
      * intros [[-> | Hl] Hs]; [contradiction | auto].
    + rewrite !elem_of_cons, IH, elem_of_cons. split.
      * intros [-> | [Hl Hs]]; [auto | tauto].
      * intros [[-> | Hl] Hs]; [auto|].
        destruct (decide (x = y)) as [-> | Hne]; [auto | tauto].
Qed.

Lemma unique_from_NoDup {A : Type} `{EqDecision A} (seen l : list A) :
  NoDup (unique_from seen l).
Proof.
  revert seen. induction l as [|y l IH]; intros seen; simpl.
  - constructor.
  - case_bool_decide as Hy; [apply IH|].
    constructor; [|apply IH].
    rewrite unique_from_elem, elem_of_cons. tauto.
Qed.

(** The selectbox offers each date of the table once. *)
Lemma available_dates_distinct (df : DataFrame) :
  NoDup (available_dates df) /\
  forall d : date, d ∈ available_dates df <-> exists r, r ∈ df /\ obs_date r = d.
Proof.
  unfold available_dates, unique. split; [apply unique_from_NoDup|].
  intros d. rewrite unique_from_elem, list_elem_of_fmap, elem_of_nil. split.
  - intros [(r & -> & Hr) _]. eauto.
  - intros (r & Hr & <-). split; [eauto | tauto].
Qed.

(** The selection shown first is the last of the dates offered. *)
Lemma default_selected_date_last (df : DataFrame) :
  default_selected_date df = last (available_dates df).
Proof.
  unfold default_selected_date, selectbox_index.
  destruct (available_dates df) as [|d ds] eqn:E using rev_ind; [reflexivity|].
  rewrite last_snoc, length_app. simpl.
  destruct (Z.ltb_spec (Z.of_nat (length ds + 1) - 1) 0) as [Hneg|_]; [lia|].
  replace (Z.to_nat (Z.of_nat (length ds + 1) - 1)) with (length ds) by lia.
  apply list_lookup_middle. reflexivity.
Qed.

(** C9, on a table listed from the newest date to the oldest.  The slider
    has the range 0.0 to 1.0, the step 0.05 and the value 0.3, the
    selectbox offers the two dates of the table, and the date selected at
    first is the last one offered, 2024-01-01, while the most recent one
    is 2024-01-02. *)
Theorem default_date_is_last_offered :
  let df := [ObsRow day2 ∅; ObsRow day1 ∅] in
  attention_threshold_slider = Slider 0 1 (3 # 10) (5 # 100) /\
  available_dates df = [day2; day1] /\
  default_selected_date df = Some day1 /\
  most_recent (available_dates df) = Some day2 /\
  default_selected_date df <> most_recent (available_dates df).
Proof.
  intros df. subst df.
  split; [reflexivity|]. split; [vm_compute; reflexivity|].
  split; [vm_compute; reflexivity|]. split; [vm_compute; reflexivity|].
  vm_compute. discriminate.
Qed.

(** ** The loader *)

Lemma probe_first (env : os_env) (pre : list string) (path : string) (post : list string) :
  Forall (fun p => os_path_exists env p = false) pre ->
  os_path_exists env path = true ->
  probe env (app pre (path :: post)) =
    Some ([st_write ["找到文件路径: " ++ path]], read_comp env path).
Proof.
  intros Hpre Hpath. induction Hpre as [|p pre Hp Hpre IH]; simpl.
  - rewrite Hpath. reflexivity.
  - rewrite Hp. exact IH.
Qed.

Lemma probe_none (env : os_env) (paths : list string) :
  Forall (fun p => os_path_exists env p = false) paths ->
  probe env paths = None.
Proof.
  induction 1 as [|p paths Hp Hpaths IH]; simpl; [reflexivity|].
  rewrite Hp. exact IH.
Qed.

(** C8. The loader has three candidate paths, in this order: the relative
    path [index.xlsx], which is looked up from the working directory, the
    file of that name next to the script, and the deployment path.  The
    first candidate that exists is announced and read, and its table is
    the result (no table if reading fails).  When none exists the only
    element shown is the error that lists the three paths, no table is
    returned and the session is halted. *)
Theorem load_data_search_order (env : os_env) :
  possible_paths env =
    [ "index.xlsx";
      os_path_join (os_path_dirname (dunder_file env)) "index.xlsx";
      "/mount/src/macrorisk/index.xlsx" ] /\
  os_path_exists env "index.xlsx" =
    bool_decide (os_path_join (getcwd env) "index.xlsx" ∈ existing env) /\
  (forall (pre : list string) (path : string) (post : list string),
      possible_paths env = app pre (path :: post) ->
      Forall (fun p => os_path_exists env p = false) pre ->
      os_path_exists env path = true ->
      (exists rest, fst (load_data env) =
                      st_write ["找到文件路径: " ++ path] :: rest) /\
      snd (load_data env) =
        match read_comp env path with
        | Ok df => Some df
        | Raise _ => None
        end) /\
  (Forall (fun p => os_path_exists env p = false) (possible_paths env) ->
   load_data env =
     ([st_error ("未能找到数据文件。尝试过的路径：" ++
                 String.concat newline (possible_paths env))], None) /\
   snd (start_session env) = Halted).
Proof.
  split; [reflexivity|]. split; [reflexivity|]. split.
  - intros pre path post Hsplit Hpre Hpath.
    unfold load_data. rewrite Hsplit, (probe_first _ _ _ _ Hpre Hpath).
    destruct (read_comp env path) as [df|e]; simpl; eauto.
  - intros Hnone. unfold start_session, load_data.
    rewrite (probe_none _ _ Hnone). split; reflexivity.
Qed.

Lemma load_data_search_order_witness :
  snd (load_data deployed_env) = Some [sample_row] /\
  load_data bare_env =
    ([st_error ("未能找到数据文件。尝试过的路径：" ++
                String.concat newline (possible_paths bare_env))], None) /\
  snd (start_session bare_env) = Halted.
Proof.
  split.
  - apply (proj2 (proj1 (proj2 (proj2 (load_data_search_order deployed_env)))
                   [ "index.xlsx"; "/app/macrorisk/index.xlsx" ]
                   "/mount/src/macrorisk/index.xlsx" []
                   eq_refl
                   ltac:(repeat constructor)
                   ltac:(vm_compute; reflexivity))).
  - apply (proj2 (proj2 (proj2 (load_data_search_order bare_env)))).
    repeat constructor.
Defined.

(** ** The chart *)

Lemma alter_last {A : Type} (g : A -> A) (l : list A) (x : A) :
  alter g (pred (length (app l [x]))) (app l [x]) = app l [g x].
Proof.
  rewrite length_app. simpl.
  replace (pred (length l + 1)) with (length l + 0) by lia.
  rewrite alter_app_r. reflexivity.
Qed.

Lemma on_gcf_snoc (g : figure -> figure) (rc : gmap string rc_value)
    (figs : list figure) (f : figure) :
  on_gcf g (World rc (app figs [f])) = (Ok tt, World rc (app figs [g f])).
Proof.
  unfold on_gcf. cbn [figures rcParams]. f_equal. f_equal.
  rewrite <- alter_last.
  destruct (app figs [f]) as [|f0 l] eqn:E; [|reflexivity].
  destruct figs; discriminate.
Qed.

Lemma bind_on_gcf {B : Type} (g : figure -> figure) (k : unit -> M B)
    (rc : gmap string rc_value) (figs : list figure) (f : figure) :
  bind (on_gcf g) k (World rc (app figs [f])) = k tt (World rc (app figs [g f])).
Proof. unfold bind. rewrite on_gcf_snoc. reflexivity. Qed.

Lemma bind_lift_Ok {A B : Type} (a : A) (k : A -> M B) (w : world) :
  bind (lift (Ok a)) k w = k a w.
Proof. reflexivity. Qed.

Lemma mapM_result_length {A B : Type} (f : A -> result B) (l : list A) (k : list B) :
  mapM f l = Ok k -> length k = length l.
Proof.
  revert k. induction l as [|x l IH]; intros k; simpl.
  - intros [= <-]. reflexivity.
  - destruct (f x) as [y|e]; simpl; [|discriminate].
    destruct (mapM f l) as [k'|e]; simpl; [|discriminate].
    intros [= <-]. simpl. f_equal. apply IH. reflexivity.
Qed.

Lemma bind_eq {A B : Type} (m : M A) (k : A -> M B) (w w' : world) (a : A) :
  m w = (Ok a, w') -> bind m k w = k a w'.
Proof. intros H. unfold bind. rewrite H. reflexivity. Qed.

Lemma index_in_range {A : Type} (l : list A) (i : nat) :
  i < length l -> exists x, index l i = Ok x.
Proof.
  intros Hi. unfold index.
  destruct (lookup_lt_is_Some_2 l i Hi) as [x Hx]. rewrite Hx. eauto.
Qed.

Lemma acts_on_gcf (g : figure -> figure) : acts_as (on_gcf g) g.
Proof. intros rc figs f. apply on_gcf_snoc. Qed.

Lemma acts_seq (m : M unit) (k : unit -> M unit) (g1 g2 : figure -> figure) :
  acts_as m g1 -> acts_as (k tt) g2 -> acts_as (bind m k) (fun f => g2 (g1 f)).
Proof.
  intros H1 H2 rc figs f. unfold bind. rewrite H1. apply H2.
Qed.

Lemma acts_lift_Ok {A : Type} (a : A) (k : A -> M unit) (g : figure -> figure) :
  acts_as (k a) g -> acts_as (bind (lift (Ok a)) k) g.
Proof. intros H rc figs f. apply H. Qed.

Lemma acts_ret : acts_as (ret tt) (fun f => f).
Proof. intros rc figs f. reflexivity. Qed.

(** The labelling loop adds its annotations to the current figure and
    changes nothing else. *)
Lemma annotate_from_acts (cats : list string) (xs ys : list cell) (i : nat) :
  i + length cats <= length xs -> i + length cats <= length ys ->
  exists anns : list annotation,
    acts_as (annotate_from i cats xs ys) (add_annotations anns).
Proof.
  revert i. induction cats as [|txt cats IH]; intros i Hx Hy; simpl in *.
  - exists []. intros rc figs [? ? ? ? ? ? ? ? ? ? ?]. unfold ret, add_annotations.
    simpl. rewrite app_nil_r. reflexivity.
  - destruct (index_in_range xs i ltac:(lia)) as [x Ex].
    destruct (index_in_range ys i ltac:(lia)) as [y Ey].
    destruct (IH (S i) ltac:(lia) ltac:(lia)) as [anns Hanns].
    exists (Annotation txt (x, y) (5, 5)%Z :: anns).
    rewrite Ex, Ey.
    apply acts_lift_Ok, acts_lift_Ok.
    unfold plt_annotate. intros rc figs f.
    unfold bind. rewrite on_gcf_snoc, Hanns. unfold add_annotations. simpl.
    rewrite <- app_assoc. reflexivity.
Qed.

(** The figure the drawing calls make of an empty one. *)
Lemma draw_chart_acts (xs ys : list cell) (t : Q) (d : date) :
  length xs = 9 -> length ys = 9 ->
  exists g : figure -> figure,
    acts_as (draw_chart xs ys t (Some d)) g /\
    xlim (g empty_figure) = Some ((-1)%Q, 1%Q) /\
    ylim (g empty_figure) = Some (0%Q, (11 # 10)%Q) /\
    hlines (g empty_figure) = [t] /\
    vlines (g empty_figure) = [0%Q] /\
    texts (g empty_figure) =
      [ Text (1 # 2) ((1 + t) / 2) ("市场强势信号" ++ newline ++ "(Ⅰ)");
        Text (- (1 # 2)) ((1 + t) / 2) ("市场恐慌/风险警报" ++ newline ++ "(Ⅱ)");
        Text (- (1 # 2)) (t / 2) ("潜在风险未爆发" ++ newline ++ "(Ⅲ)");
        Text (1 # 2) (t / 2) ("冷门利好" ++ newline ++ "(Ⅳ)") ] /\
    title (g empty_figure) =
      Some ("宏观风险象限图（日期: " ++ strftime_Ymd d ++ "）") /\
    scatter_xy (g empty_figure) = zip xs ys.
Proof.
  intros Hxs Hys.
  destruct (annotate_from_acts risk_categories xs ys 0) as [anns Hanns];
    [rewrite Hxs; simpl; lia | rewrite Hys; simpl; lia |].
  eexists. split.
  - unfold draw_chart.
    eapply acts_seq; [apply acts_on_gcf|].
    eapply acts_seq; [exact Hanns|].
    do 10 (eapply acts_seq; [apply acts_on_gcf|]).
    apply acts_lift_Ok.
    eapply acts_seq; [apply acts_on_gcf|].
    apply acts_on_gcf.
  - repeat match goal with |- _ /\ _ => split end; vm_compute; reflexivity.
Qed.

(** The chart that is shown does not depend on the world the run starts
    from, and its layout is fixed by the threshold and the date. *)
Lemma render_chart_runs (xs ys : list cell) (t : Q) (d : date) :
  length xs = 9 -> length ys = 9 ->
  exists fig : figure,
    (forall w, fst (render_chart xs ys t (Some d) w) = Ok fig) /\
    xlim fig = Some ((-1)%Q, 1%Q) /\
    ylim fig = Some (0%Q, (11 # 10)%Q) /\
    hlines fig = [t] /\
    vlines fig = [0%Q] /\
    texts fig =
      [ Text (1 # 2) ((1 + t) / 2) ("市场强势信号" ++ newline ++ "(Ⅰ)");
        Text (- (1 # 2)) ((1 + t) / 2) ("市场恐慌/风险警报" ++ newline ++ "(Ⅱ)");
        Text (- (1 # 2)) (t / 2) ("潜在风险未爆发" ++ newline ++ "(Ⅲ)");
        Text (1 # 2) (t / 2) ("冷门利好" ++ newline ++ "(Ⅳ)") ] /\
    title fig = Some ("宏观风险象限图（日期: " ++ strftime_Ymd d ++ "）") /\
    scatter_xy fig = zip xs ys.
Proof.
  intros Hxs Hys.
  destruct (draw_chart_acts xs ys t d Hxs Hys) as (g & Hg & Hlayout).
  exists (g empty_figure). split; [|exact Hlayout].
  intros [rc figs]. unfold render_chart.
  unfold bind at 1. unfold plt_subplots at 1. cbn [figures rcParams].
  unfold bind at 1. unfold rc_set at 1. cbn [figures rcParams].
  unfold bind at 1. unfold rc_set at 1. cbn [figures rcParams].
  unfold bind. rewrite Hg.
  unfold st_pyplot. cbn [figures fst].
  rewrite list_lookup_total_middle by reflexivity. reflexivity.
Qed.

Lemma list_ascii_app (s1 s2 : string) :
  list_ascii_of_string (s1 ++ s2) =
  app (list_ascii_of_string s1) (list_ascii_of_string s2).
Proof.
  induction s1 as [|c s1 IH]; simpl; [reflexivity|]. rewrite IH. reflexivity.
Qed.

Lemma string_length_app (s1 s2 : string) :
  String.length (s1 ++ s2) = String.length s1 + String.length s2.
Proof.
  induction s1 as [|c s1 IH]; simpl; [reflexivity|]. rewrite IH. reflexivity.
Qed.

Lemma zfill_length (width n : nat) : String.length (zfill width n) = width.
Proof.
  revert n. induction width as [|w IH]; intros n; simpl; [reflexivity|].
  rewrite string_length_app, IH. simpl. lia.
Qed.

(** [zfill] writes the number itself, as long as it fits the width. *)
Lemma zfill_value (width n : nat) :
  decimal_value (zfill width n) = n mod 10 ^ width.
Proof.
  unfold decimal_value. revert n.
  induction width as [|w IH]; intros n.
  - cbn [zfill list_ascii_of_string fold_left].
    rewrite Nat.pow_0_r, Nat.mod_1_r. reflexivity.
  - cbn [zfill]. rewrite list_ascii_app, fold_left_app, IH.
    cbn [list_ascii_of_string fold_left].
    rewrite nat_ascii_embedding
      by (pose proof (Nat.mod_upper_bound n 10); lia).
    rewrite Nat.pow_succ_r', Nat.Div0.mod_mul_r. lia.
Qed.

(** C7. Whatever the threshold, the date and the world the run starts
    from, the chart that is shown has the sentiment axis from -1.0 to 1.0
    and the attention axis from 0.0 to 1.1, one horizontal divider at the
    threshold and one vertical divider at 0, the four quadrant captions at
    (0.5, (1+t)/2), (-0.5, (1+t)/2), (-0.5, t/2) and (0.5, t/2), and a
    title that embeds the date written as four digits of year, two of
    month and two of day, separated by hyphens. *)
Theorem chart_layout (t : Q) (d : date) (xs ys : list cell) (w : world) :
  length xs = 9 -> length ys = 9 ->
  exists fig : figure,
    fst (render_chart xs ys t (Some d) w) = Ok fig /\
    xlim fig = Some ((-1)%Q, 1%Q) /\
    ylim fig = Some (0%Q, (11 # 10)%Q) /\
    hlines fig = [t] /\
    vlines fig = [0%Q] /\
    map (fun c => (text_x c, text_y c)) (texts fig) =
      [ ((1 # 2)%Q, ((1 + t) / 2)%Q); ((- (1 # 2))%Q, ((1 + t) / 2)%Q);
        ((- (1 # 2))%Q, (t / 2)%Q); ((1 # 2)%Q, (t / 2)%Q) ] /\
    map text_s (texts fig) =
      [ "市场强势信号" ++ newline ++ "(Ⅰ)"; "市场恐慌/风险警报" ++ newline ++ "(Ⅱ)";
        "潜在风险未爆发" ++ newline ++ "(Ⅲ)"; "冷门利好" ++ newline ++ "(Ⅳ)" ] /\
    title fig = Some ("宏观风险象限图（日期: " ++ strftime_Ymd d ++ "）") /\
    strftime_Ymd d =
      zfill 4 (year d) ++ "-" ++ zfill 2 (month d) ++ "-" ++ zfill 2 (day d) /\
    String.length (zfill 4 (year d)) = 4 /\
    String.length (zfill 2 (month d)) = 2 /\
    String.length (zfill 2 (day d)) = 2 /\
    decimal_value (zfill 4 (year d)) = year d mod 10 ^ 4 /\
    decimal_value (zfill 2 (month d)) = month d mod 10 ^ 2 /\
    decimal_value (zfill 2 (day d)) = day d mod 10 ^ 2.
Proof.
  intros Hxs Hys.
  destruct (render_chart_runs xs ys t d Hxs Hys)
    as (fig & Hrun & Hx & Hy & Hh & Hv & Htexts & Htitle & _).
  exists fig. rewrite Htexts.
  repeat split; try assumption; try apply Hrun; try apply zfill_length;
    apply zfill_value.
Qed.

Lemma chart_layout_witness :
  exists fig : figure,
    fst (render_chart sample_sentiments sample_attentions (3 # 10) (Some day1)
           empty_world) = Ok fig /\
    xlim fig = Some ((-1)%Q, 1%Q) /\
    ylim fig = Some (0%Q, (11 # 10)%Q) /\
    hlines fig = [(3 # 10)%Q] /\
    title fig = Some "宏观风险象限图（日期: 2024-01-01）".
Proof.
  destruct (chart_layout (3 # 10) day1 sample_sentiments sample_attentions
              empty_world eq_refl eq_refl)
    as (fig & Hrun & Hx & Hy & Hh & _ & _ & _ & Htitle & _).
  exists fig. repeat split; assumption.
Defined.

(** ** One run of the page *)

Lemma sentiments_length (row : obs_row) (xs : list cell) :
  sentiments row = Ok xs -> length xs = 9.
Proof. intros H. apply mapM_result_length in H. exact H. Qed.

Lemma attentions_length (row : obs_row) (ys : list cell) :
  attentions row = Ok ys -> length ys = 9.
Proof. intros H. apply mapM_result_length in H. exact H. Qed.

(** When the row is found and has its eighteen columns, the run shows a
    chart and the table, the same from every world. *)
Lemma pipeline_runs (df : DataFrame) (sd : option date) (t : Q)
    (row : obs_row) (xs ys : list cell) :
  selected_data df sd = Ok row ->
  sentiments row = Ok xs ->
  attentions row = Ok ys ->
  exists fig : figure,
    forall w, fst (pipeline df sd t w) = Ok (fig, detail_table t xs ys).
Proof.
  intros Hrow Hxs Hys.
  destruct sd as [d|]; [|rewrite selected_data_None in Hrow; discriminate].
  destruct (render_chart_runs xs ys t d (sentiments_length _ _ Hxs)
              (attentions_length _ _ Hys)) as (fig & Hfig & _).
  exists fig. intros w. unfold pipeline.
  rewrite Hrow, bind_lift_Ok, Hxs, bind_lift_Ok, Hys, bind_lift_Ok.
  specialize (Hfig w). unfold bind.
  destruct (render_chart xs ys t (Some d) w) as [r w']. simpl in Hfig.
  subst r. reflexivity.
Qed.

Lemma pipeline_world_independent (df : DataFrame) (sd : option date) (t : Q)
    (w1 w2 : world) :
  fst (pipeline df sd t w1) = fst (pipeline df sd t w2).
Proof.
  destruct (selected_data df sd) as [row|e] eqn:Hrow;
    [|unfold pipeline; rewrite Hrow; reflexivity].
  destruct (sentiments row) as [xs|e] eqn:Hxs;
    [|unfold pipeline; rewrite Hrow, !bind_lift_Ok, Hxs; reflexivity].
  destruct (attentions row) as [ys|e] eqn:Hys;
    [|unfold pipeline; rewrite Hrow, !bind_lift_Ok, Hxs, !bind_lift_Ok, Hys;
      reflexivity].
  destruct (pipeline_runs df sd t row xs ys Hrow Hxs Hys) as [fig Hfig].
  rewrite (Hfig w1), (Hfig w2). reflexivity.
Qed.

(** ** Missing values *)

Lemma get_quadrant_NaN (t : Q) (row : risk_row) :
  sentiment row = NaN \/ attention row = NaN -> get_quadrant t row = label_IV.
Proof.
  unfold get_quadrant. intros [H | H]; rewrite H; simpl.
  - reflexivity.
  - rewrite !andb_false_r. reflexivity.
Qed.

Lemma round3_NaN (c : cell) : c = NaN -> round3 c = NaN.
Proof. intros ->. reflexivity. Qed.

Lemma risk_frame_lookup (cats : list string) (xs ys : list cell)
    (i : nat) (cat : string) (x y : cell) :
  cats !! i = Some cat -> xs !! i = Some x -> ys !! i = Some y ->
  In (RiskRow cat x y) (risk_frame cats xs ys).
Proof.
  revert i xs ys. induction cats as [|c cats IH]; intros i xs ys Hc Hx Hy.
  - discriminate.
  - destruct xs as [|x0 xs]; [destruct i; discriminate|].
    destruct ys as [|y0 ys]; [destruct i; discriminate|].
    destruct i as [|i]; simpl in *.
    + left. congruence.
    + right. eapply IH; eassumption.
Qed.

Lemma detail_table_row (t : Q) (xs ys : list cell) (r : risk_row) :
  In r (risk_frame risk_categories xs ys) ->
  In (DetailRow (category r) (round3 (sentiment r)) (round3 (attention r))
                (get_quadrant t (round_row r)))
     (detail_table t xs ys).
Proof.
  intros Hr. unfold detail_table, formatted_risk_data. rewrite map_map.
  apply (in_map (fun row => DetailRow (category (round_row row))
                              (sentiment (round_row row))
                              (attention (round_row row))
                              (get_quadrant t (round_row row)))).
  eapply Permutation_in; [apply sort_values_perm | exact Hr].
Qed.

Lemma mapM_result_all {A B : Type} (f : A -> result B) (l : list A) (k : list B) :
  mapM f l = Ok k -> forall x, In x l -> exists y, f x = Ok y.
Proof.
  revert k. induction l as [|a l IH]; intros k Hk x Hx; [destruct Hx|].
  simpl in Hk. destruct (f a) as [b|e] eqn:Ea; simpl in Hk; [|discriminate].
  destruct (mapM f l) as [k'|e] eqn:El; simpl in Hk; [|discriminate].
  destruct Hx as [<- | Hx]; [eauto|]. eapply IH; [reflexivity | exact Hx].
Qed.

Lemma mapM_result_raise {A B : Type} (f : A -> result B) (l : list A) (e : exn) :
  mapM f l = Raise e -> exists x, In x l /\ f x = Raise e.
Proof.
  induction l as [|a l IH]; simpl; [discriminate|].
  destruct (f a) as [b|e'] eqn:Ea; simpl.
  - destruct (mapM f l) as [k|e'] eqn:El; simpl; [discriminate|].
    intros [= <-]. destruct (IH eq_refl) as (x & Hx & Hfx). eauto.
  - intros [= <-]. eauto.
Qed.

Lemma getitem_raises (row : obs_row) (key : string) (e : exn) :
  getitem row key = Raise e -> exn_class e = "KeyError".
Proof.
  unfold getitem. destruct (obs_cells row !! key); [discriminate|].
  intros [= <-]. reflexivity.
Qed.

(** C5, counterexample.  In a row whose sentiment of 利率 is missing, the
    run completes and the table files 利率 under quadrant IV. *)
Lemma missing_sentiment_is_classified :
  obs_cells nan_row !! "利率_情绪" = Some NaN /\
  exists (fig : figure) (table : list detail_row),
    fst (pipeline [nan_row] (Some day1) (3 # 10) empty_world) = Ok (fig, table) /\
    In (DetailRow "利率" NaN (Num (1 # 2)) label_IV) table.
Proof.
  split; [vm_compute; reflexivity|].
  destruct (pipeline_runs [nan_row] (Some day1) (3 # 10) nan_row
              nan_sentiments sample_attentions) as [fig Hfig];
    [vm_compute; reflexivity ..|].
  exists fig, (detail_table (3 # 10) nan_sentiments sample_attentions).
  split; [apply Hfig|].
  vm_compute. tauto.
Qed.

(** C5, as the code has it.  A missing value does not stop the run.  When
    the selected row has its eighteen columns the chart and the table
    are shown, and a category whose sentiment or attention is missing is
    in the table under quadrant IV.  The run fails, with a [KeyError],
    when a column of a category is absent from the row. *)
Theorem missing_value_is_quadrant_IV (df : DataFrame) (sd : option date) (t : Q)
    (w : world) (row : obs_row) :
  selected_data df sd = Ok row ->
  (forall xs ys : list cell,
      sentiments row = Ok xs -> attentions row = Ok ys ->
      (exists fig : figure,
          fst (pipeline df sd t w) = Ok (fig, detail_table t xs ys)) /\
      forall (i : nat) (cat : string) (x y : cell),
        risk_categories !! i = Some cat -> xs !! i = Some x -> ys !! i = Some y ->
        x = NaN \/ y = NaN ->
        In (DetailRow cat (round3 x) (round3 y) label_IV) (detail_table t xs ys)) /\
  (forall cat : string,
      In cat risk_categories ->
      obs_cells row !! (cat ++ "_情绪") = None \/
      obs_cells row !! (cat ++ "_关注度") = None ->
      exists e : exn,
        fst (pipeline df sd t w) = Raise e /\ exn_class e = "KeyError").
Proof.
  intros Hrow. split.
  - intros xs ys Hxs Hys. split.
    + destruct (pipeline_runs df sd t row xs ys Hrow Hxs Hys) as [fig Hfig].
      exists fig. apply Hfig.
    + intros i cat x y Hc Hx Hy Hnan.
      pose proof (detail_table_row t xs ys (RiskRow cat x y)
                    (risk_frame_lookup _ _ _ _ _ _ _ Hc Hx Hy)) as Hin.
      rewrite get_quadrant_NaN in Hin; [exact Hin|].
      simpl. destruct Hnan as [-> | ->]; [left | right]; reflexivity.
  - intros cat Hcat Hmiss.
    destruct (sentiments row) as [xs|e] eqn:Hxs.
    + destruct (attentions row) as [ys|e] eqn:Hys.
      * exfalso. destruct Hmiss as [Hm | Hm].
        -- destruct (mapM_result_all _ _ _ Hxs cat Hcat) as [c Hc].
           unfold getitem in Hc. rewrite Hm in Hc. discriminate.
        -- destruct (mapM_result_all _ _ _ Hys cat Hcat) as [c Hc].
           unfold getitem in Hc. rewrite Hm in Hc. discriminate.
      * exists e. split.
        -- unfold pipeline.
           rewrite Hrow, bind_lift_Ok, Hxs, bind_lift_Ok, Hys. reflexivity.
        -- destruct (mapM_result_raise _ _ _ Hys) as (key & _ & Hkey).
           eapply getitem_raises, Hkey.
    + exists e. split.
      * unfold pipeline. rewrite Hrow, bind_lift_Ok, Hxs. reflexivity.
      * destruct (mapM_result_raise _ _ _ Hxs) as (key & _ & Hkey).
        eapply getitem_raises, Hkey.
Qed.

Lemma missing_value_is_quadrant_IV_witness :
  (exists fig : figure,
      fst (pipeline [nan_row] (Some day1) (3 # 10) empty_world) =
        Ok (fig, detail_table (3 # 10) nan_sentiments sample_attentions)) /\
  In (DetailRow "利率" (round3 NaN) (round3 (Num (5 # 10))) label_IV)
     (detail_table (3 # 10) nan_sentiments sample_attentions).
Proof.
  destruct (proj1 (missing_value_is_quadrant_IV [nan_row] (Some day1) (3 # 10)
                     empty_world nan_row eq_refl)
                  nan_sentiments sample_attentions eq_refl eq_refl)
    as [Hrun Hrows].
  split; [exact Hrun|].
  apply (Hrows 0 "利率" NaN (Num (5 # 10)) eq_refl eq_refl eq_refl).
  left. reflexivity.
Defined.

(** ** Rounding and the quadrant column *)

(** The quadrant column is computed from the rounded columns. *)
Lemma formatted_quadrant (t : Q) (risk_data : list risk_row) :
  map shown_quadrant (formatted_risk_data t risk_data) =
  map (fun r => get_quadrant t (round_row r)) risk_data.
Proof.
  unfold formatted_risk_data. rewrite !map_map. reflexivity.
Qed.

(** C3, on the sample row with the threshold 0.3.  地缘政治 has the
    sentiment -0.0001 and the attention 0.5, which the classifier puts in
    quadrant II, and the table shows it in quadrant I; 衰退 has the
    sentiment -0.5 and the attention 0.2996, which the classifier puts in
    quadrant III, and the table shows it in quadrant II. *)
Theorem quadrant_column_reads_rounded_cells :
  In (RiskRow "地缘政治" (Num (- (1 # 10000))) (Num (5 # 10))) sample_frame /\
  get_quadrant (3 # 10) (RiskRow "地缘政治" (Num (- (1 # 10000))) (Num (5 # 10))) =
    label_II /\
  In (RiskRow "衰退" (Num (- (5 # 10))) (Num (2996 # 10000))) sample_frame /\
  get_quadrant (3 # 10) (RiskRow "衰退" (Num (- (5 # 10))) (Num (2996 # 10000))) =
    label_III /\
  exists fig : figure,
    fst (pipeline [sample_row] (Some day1) (3 # 10) empty_world) =
      Ok (fig, detail_table (3 # 10) sample_sentiments sample_attentions) /\
    In (DetailRow "地缘政治" (Num 0) (Num (1 # 2)) label_I)
       (detail_table (3 # 10) sample_sentiments sample_attentions) /\
    In (DetailRow "衰退" (Num (- (1 # 2))) (Num (3 # 10)) label_II)
       (detail_table (3 # 10) sample_sentiments sample_attentions).
Proof.
  split; [vm_compute; tauto|]. split; [reflexivity|].
  split; [vm_compute; tauto|]. split; [reflexivity|].
  destruct (pipeline_runs [sample_row] (Some day1) (3 # 10) sample_row
              sample_sentiments sample_attentions) as [fig Hfig];
    [vm_compute; reflexivity ..|].
  exists fig. split; [apply Hfig|].
  split; vm_compute; tauto.
Qed.

(** * Further properties *)

(** ** The loader, continued *)

Lemma probe_inv (env : os_env) (paths : list string)
    (shown : list st_element) (r : result DataFrame) :
  probe env paths = Some (shown, r) ->
  exists (pre : list string) (path : string) (post : list string),
    paths = app pre (path :: post) /\
    Forall (fun p => os_path_exists env p = false) pre /\
    os_path_exists env path = true /\
    shown = [st_write ["找到文件路径: " ++ path]] /\
    r = read_comp env path.
Proof.
  induction paths as [|p paths IH]; simpl; [discriminate|].
  destruct (os_path_exists env p) eqn:Ep.
  - intros [= <- <-]. exists [], p, paths. repeat split; auto.
  - intros H. destruct (IH H) as (pre & path & post & -> & Hpre & Hpath & Hs & Hr).
    exists (p :: pre), path, post. repeat split; auto.
Qed.

(** X1. When the first candidate that exists cannot be read, the loader
    does not go on to the candidates after it: it shows the announcement
    of that file, the error carrying the message of the exception, the
    working directory and its listing, returns no table, and the session
    is halted. *)
Theorem load_data_read_failure (env : os_env) (pre : list string) (path : string)
    (post : list string) (e : exn) :
  possible_paths env = app pre (path :: post) ->
  Forall (fun p => os_path_exists env p = false) pre ->
  os_path_exists env path = true ->
  read_comp env path = Raise e ->
  load_data env =
    ([ st_write ["找到文件路径: " ++ path];
       st_error ("读取数据时出错：" ++ exn_str e);
       st_write ["当前工作目录："; getcwd env];
       st_write ("目录内容：" :: listdir env) ], None) /\
  snd (start_session env) = Halted.
Proof.
  intros Hsplit Hpre Hpath Hread.
  assert (Hload : load_data env =
    ([ st_write ["找到文件路径: " ++ path];
       st_error ("读取数据时出错：" ++ exn_str e);
       st_write ["当前工作目录："; getcwd env];
       st_write ("目录内容：" :: listdir env) ], None)).
  { unfold load_data. rewrite Hsplit, (probe_first _ _ _ _ Hpre Hpath), Hread.
    reflexivity. }
  split; [exact Hload|]. unfold start_session. rewrite Hload. reflexivity.
Qed.

Lemma load_data_read_failure_witness :
  os_path_exists broken_env "/mount/src/macrorisk/index.xlsx" = true /\
  read_comp broken_env "/mount/src/macrorisk/index.xlsx" = Ok [sample_row] /\
  snd (load_data broken_env) = None /\
  snd (start_session broken_env) = Halted.
Proof.
  split; [vm_compute; reflexivity|]. split; [reflexivity|].
  destruct (load_data_read_failure broken_env [] "index.xlsx"
              [ "/app/macrorisk/index.xlsx"; "/mount/src/macrorisk/index.xlsx" ]
              (Exn "ValueError" "Worksheet named 'comp' not found")
              eq_refl ltac:(constructor) ltac:(vm_compute; reflexivity) eq_refl)
    as [Hload Hhalt].
  split; [rewrite Hload; reflexivity | exact Hhalt].
Defined.

(** X2. The rest of the page runs on a table exactly when some candidate
    exists and the first one that does is read without error; the table
    is then the one read from it. *)
Theorem start_session_loaded_iff (env : os_env) (df : DataFrame) :
  snd (start_session env) = Loaded df <->
  exists (pre : list string) (path : string) (post : list string),
    possible_paths env = app pre (path :: post) /\
    Forall (fun p => os_path_exists env p = false) pre /\
    os_path_exists env path = true /\
    read_comp env path = Ok df.
Proof.
  unfold start_session, load_data. split.
  - destruct (probe env (possible_paths env)) as [[shown r]|] eqn:E;
      [|discriminate].
    destruct (probe_inv _ _ _ _ E) as (pre & path & post & Hs & Hpre & Hpath & _ & ->).
    destruct (read_comp env path) as [df'|e] eqn:Er; simpl; [|discriminate].
    intros [= <-]. exists pre, path, post. auto.
  - intros (pre & path & post & Hs & Hpre & Hpath & Hread).
    rewrite Hs, (probe_first _ _ _ _ Hpre Hpath), Hread. reflexivity.
Qed.

Lemma start_session_loaded_iff_witness :
  snd (start_session deployed_env) = Loaded [sample_row].
Proof.
  apply (proj2 (start_session_loaded_iff deployed_env [sample_row])).
  exists [ "index.xlsx"; "/app/macrorisk/index.xlsx" ],
         "/mount/src/macrorisk/index.xlsx", [].
  split; [reflexivity|]. split; [repeat constructor|].
  split; [vm_compute; reflexivity | reflexivity].
Defined.

Lemma upto_last_slash_none (p : string) :
  has_slash p = false -> upto_last_slash p = "".
Proof.
  induction p as [|c p IH]; simpl; [reflexivity|].
  intros H. apply orb_false_iff in H as [Hc Hp].
  rewrite (IH Hp), Hc. reflexivity.
Qed.

Lemma upto_last_slash_app (d name : string) :
  has_slash name = false ->
  upto_last_slash (d ++ "/" ++ name) = d ++ "/".
Proof.
  intros Hname. induction d as [|c d IH].
  - change (upto_last_slash ("" ++ "/" ++ name))
      with (match upto_last_slash name with
            | EmptyString => if bool_decide (slash = slash) then "/" else ""
            | h => String slash h
            end).
    rewrite (upto_last_slash_none _ Hname). reflexivity.
  - change (upto_last_slash (String c d ++ "/" ++ name))
      with (match upto_last_slash (d ++ "/" ++ name) with
            | EmptyString => if bool_decide (c = slash) then "/" else ""
            | h => String c h
            end).
    rewrite IH. destruct d; reflexivity.
Qed.

Lemma rstrip_slash_cons (c : ascii) (s : string) :
  rstrip_slash (String c s) =
  match rstrip_slash s with
  | EmptyString => if bool_decide (c = slash) then "" else String c ""
  | t => String c t
  end.
Proof. reflexivity. Qed.

Lemma rstrip_slash_app (d : string) :
  d <> "" -> endswith_slash d = false -> rstrip_slash (d ++ "/") = d.
Proof.
  induction d as [|c d IH]; [congruence|]. intros _ Hend.
  change (String c d ++ "/") with (String c (d ++ "/")).
  rewrite rstrip_slash_cons.
  destruct d as [|c' d].
  - simpl in *. rewrite Hend. reflexivity.
  - rewrite IH; [reflexivity | discriminate | exact Hend].
Qed.

(** X3. The second candidate is the workbook next to the script.  When
    [__file__] is a bare file name the candidate is [index.xlsx] again,
    the same as the first one; when it is [d/name] with a directory [d]
    that does not end in a slash, the candidate is [d/index.xlsx]. *)
Theorem script_relative_candidate (env : os_env) :
  (has_slash (dunder_file env) = false ->
   possible_paths env !! 1 = Some "index.xlsx") /\
  (forall d name : string,
      dunder_file env = d ++ "/" ++ name ->
      d <> "" -> endswith_slash d = false -> has_slash name = false ->
      possible_paths env !! 1 = Some (d ++ "/index.xlsx")).
Proof.
  split.
  - intros H. unfold possible_paths, os_path_dirname. simpl.
    rewrite (upto_last_slash_none _ H). reflexivity.
  - intros d name Hfile Hd Hend Hname.
    unfold possible_paths, os_path_dirname. simpl.
    rewrite Hfile, (upto_last_slash_app _ _ Hname), (rstrip_slash_app _ Hd Hend).
    destruct d as [|c d]; [congruence|].
    unfold os_path_join. simpl startswith_slash. cbv iota.
    rewrite Hend. rewrite bool_decide_eq_false_2 by discriminate. reflexivity.
Qed.

Lemma script_relative_candidate_witness :
  possible_paths (OsEnv "/srv" "app.py" ∅ [] (fun _ => Ok [])) !! 1 =
    Some "index.xlsx" /\
  possible_paths deployed_env !! 1 = Some "/app/macrorisk/index.xlsx".
Proof.
  split.
  - apply (proj1 (script_relative_candidate
                    (OsEnv "/srv" "app.py" ∅ [] (fun _ => Ok [])))).
    reflexivity.
  - apply (proj2 (script_relative_candidate deployed_env)
                 "/app/macrorisk" "risk_quadrant_app.py");
      [reflexivity | discriminate | reflexivity | reflexivity].
Defined.

(** ** The date selector and the row selection, continued *)

(** A date of the selectbox selects a row that carries it. *)
Lemma offered_date_row (df : DataFrame) (d : date) :
  d ∈ available_dates df ->
  exists r : obs_row,
    selected_data df (Some d) = Ok r /\ r ∈ df /\ obs_date r = d.
Proof.
  intros Hd. apply (proj2 (available_dates_distinct df)) in Hd.
  destruct Hd as (r0 & Hr0 & Hdate).
  unfold selected_data.
  assert (Hin : r0 ∈ filter (fun r => Some (obs_date r) = Some d) df).
  { apply list_elem_of_filter. split; [congruence | exact Hr0]. }
  destruct (filter (fun r => Some (obs_date r) = Some d) df) as [|r l] eqn:E.
  - apply elem_of_nil in Hin. destruct Hin.
  - exists r. split; [reflexivity|].
    assert (Hr : r ∈ filter (fun r => Some (obs_date r) = Some d) df)
      by (rewrite E; apply list_elem_of_here).
    apply list_elem_of_filter in Hr as [Heq Hr]. split; [exact Hr | congruence].
Qed.

(** X4. Every date offered by the selectbox has a row: selecting it
    yields a row of the table that carries that date, so the
    [IndexError] of the selection cannot be reached from the widget as
    long as the table has a row. *)
Theorem offered_date_has_row (df : DataFrame) (d : date) :
  d ∈ available_dates df ->
  exists r : obs_row,
    selected_data df (Some d) = Ok r /\ r ∈ df /\ obs_date r = d.
Proof. apply offered_date_row. Qed.

Lemma offered_date_has_row_witness :
  exists r : obs_row,
    selected_data [ObsRow day2 ∅; sample_row; nan_row] (Some day1) = Ok r /\
    r ∈ [ObsRow day2 ∅; sample_row; nan_row] /\ obs_date r = day1.
Proof.
  apply (offered_date_has_row [ObsRow day2 ∅; sample_row; nan_row] day1).
  vm_compute. apply list_elem_of_further, list_elem_of_here.
Defined.

Lemma date_leb_antisym (d1 d2 : date) :
  date_leb d1 d2 = true -> date_leb d2 d1 = true -> d1 = d2.
Proof.
  destruct d1 as [y1 m1 a1], d2 as [y2 m2 a2]. unfold date_leb. simpl.
  destruct (Nat.ltb_spec y1 y2), (Nat.ltb_spec y2 y1); try lia; try discriminate.
  destruct (Nat.ltb_spec m1 m2), (Nat.ltb_spec m2 m1); try lia; try discriminate.
  rewrite !Nat.leb_le. intros Hle1 Hle2. f_equal; lia.
Qed.

Lemma unique_from_Forall {A : Type} `{EqDecision A} (P : A -> Prop) (seen l : list A) :
  Forall P l -> Forall P (unique_from seen l).
Proof.
  intros H. revert seen. induction H as [|x l Hx Hl IH]; intros seen; simpl.
  - constructor.
  - case_bool_decide; [apply IH|]. constructor; [exact Hx | apply IH].
Qed.

Lemma unique_from_sorted {A : Type} `{EqDecision A} (R : A -> A -> Prop)
    (seen l : list A) :
  StronglySorted R l -> StronglySorted R (unique_from seen l).
Proof.
  intros H. revert seen. induction H as [|x l Hl IH Hx]; intros seen; simpl.
  - constructor.
  - case_bool_decide; [apply IH|].
    constructor; [apply IH | apply unique_from_Forall, Hx].
Qed.

Lemma most_recent_sorted (ds : list date) :
  StronglySorted date_le ds -> most_recent ds = last ds.
Proof.
  induction 1 as [|d l Hl IH Hd]; [reflexivity|].
  destruct l as [|d' l]; [reflexivity|].
  change (most_recent (d :: d' :: l))
    with (match most_recent (d' :: l) with
          | None => Some d
          | Some m => if date_leb m d then Some d else Some m
          end).
  rewrite IH. change (last (d :: d' :: l)) with (last (d' :: l)).
  destruct (last (d' :: l)) as [m|] eqn:Em;
    [|apply last_None in Em; discriminate].
  destruct (date_leb m d) eqn:Emd; [|reflexivity].
  f_equal. apply date_leb_antisym; [|exact Emd].
  rewrite Forall_forall in Hd. apply Hd.
  apply last_Some_elem_of, Em.
Qed.

(** X5. When the rows of the table are in chronological order, oldest
    first, the date selected by default is the most recent date of the
    table. *)
Theorem default_date_most_recent_when_sorted (df : DataFrame) :
  StronglySorted date_le (map obs_date df) ->
  default_selected_date df = most_recent (available_dates df).
Proof.
  intros Hsorted. rewrite default_selected_date_last. symmetry.
  apply most_recent_sorted. unfold available_dates, unique.
  apply unique_from_sorted, Hsorted.
Qed.

Lemma default_date_most_recent_when_sorted_witness :
  default_selected_date [ObsRow day1 ∅; sample_row; ObsRow day2 ∅] = Some day2.
Proof.
  rewrite (default_date_most_recent_when_sorted
             [ObsRow day1 ∅; sample_row; ObsRow day2 ∅]).
  - reflexivity.
  - repeat constructor.
Defined.

(** ** One run of the page, continued *)

Lemma render_chart_step (xs ys : list cell) (t : Q) (sd : option date)
    (g : figure -> figure) :
  acts_as (draw_chart xs ys t sd) g ->
  forall (rc : gmap string rc_value) (figs : list figure),
    render_chart xs ys t sd (World rc figs) =
      (Ok (g empty_figure),
       World (<["axes.unicode_minus" := RcBool false]>
                (<["font.sans-serif" := RcList ["Arial Unicode MS"]]> rc))
             (app figs [g empty_figure])).
Proof.
  intros Hg rc figs. unfold render_chart.
  unfold bind at 1. unfold plt_subplots at 1. cbn [figures rcParams].
  unfold bind at 1. unfold rc_set at 1. cbn [figures rcParams].
  unfold bind at 1. unfold rc_set at 1. cbn [figures rcParams].
  unfold bind. rewrite Hg.
  unfold st_pyplot. cbn [figures].
  rewrite list_lookup_total_middle by reflexivity. reflexivity.
Qed.

Lemma pipeline_completed_world (df : DataFrame) (sd : option date) (t : Q)
    (w : world) (fig : figure) (table : list detail_row) :
  fst (pipeline df sd t w) = Ok (fig, table) ->
  snd (pipeline df sd t w) =
    World (<["axes.unicode_minus" := RcBool false]>
             (<["font.sans-serif" := RcList ["Arial Unicode MS"]]> (rcParams w)))
          (app (figures w) [fig]).
Proof.
  destruct (selected_data df sd) as [row|e0] eqn:Hrow;
    [|unfold pipeline; rewrite Hrow; intros [=]].
  destruct (sentiments row) as [xs|e1] eqn:Hxs;
    [|unfold pipeline; rewrite Hrow, !bind_lift_Ok, Hxs; intros [=]].
  destruct (attentions row) as [ys|e2] eqn:Hys;
    [|unfold pipeline; rewrite Hrow, !bind_lift_Ok, Hxs, !bind_lift_Ok, Hys;
      intros [=]].
  destruct sd as [d|]; [|rewrite selected_data_None in Hrow; discriminate].
  destruct (draw_chart_acts xs ys t d (sentiments_length _ _ Hxs)
              (attentions_length _ _ Hys)) as (g & Hg & _).
  destruct w as [rc figs]. unfold pipeline.
  rewrite Hrow, !bind_lift_Ok, Hxs, !bind_lift_Ok, Hys, !bind_lift_Ok.
  unfold bind. rewrite (render_chart_step _ _ _ _ _ Hg). unfold ret. simpl.
  intros [= <- _]. reflexivity.
Qed.

(** C10, counterexample.  A run changes the state that outlives it: from
    a world without settings and without figures, one run on the sample
    row leaves the entry [axes.unicode_minus] of [rcParams] written and
    one open figure, and a second run on the same inputs leaves two open
    figures. *)
Lemma pipeline_mutates_world :
  snd (pipeline [sample_row] (Some day1) (3 # 10) empty_world) <> empty_world /\
  rcParams empty_world !! "axes.unicode_minus" = None /\
  rcParams (snd (pipeline [sample_row] (Some day1) (3 # 10) empty_world))
    !! "axes.unicode_minus" = Some (RcBool false) /\
  length (figures empty_world) = 0 /\
  length (figures (snd (pipeline [sample_row] (Some day1) (3 # 10) empty_world))) = 1 /\
  length (figures
            (snd (pipeline [sample_row] (Some day1) (3 # 10)
                    (snd (pipeline [sample_row] (Some day1) (3 # 10)
                            empty_world))))) = 2.
Proof.
  split.
  - intros H. apply (f_equal (fun w => length (figures w))) in H.
    vm_compute in H. discriminate H.
  - repeat split; vm_compute; reflexivity.
Qed.

(** C10, as the code has it.  Two runs on the same table, date and
    threshold show the same chart and the same table (or raise the same
    exception), from whatever worlds they start, and in particular when
    the second run starts from the world the first one left.  The runs do
    change the state that outlives them: a run that shows its chart has
    written the two entries of [rcParams] and has opened one figure, the
    one it showed, after the figures that were open, and it leaves that
    figure open; no output reads this state. *)
Theorem pipeline_deterministic (df : DataFrame) (sd : option date) (t : Q) :
  (forall w1 w2 : world, fst (pipeline df sd t w1) = fst (pipeline df sd t w2)) /\
  (forall w : world,
      fst (pipeline df sd t (snd (pipeline df sd t w))) = fst (pipeline df sd t w)) /\
  (forall (w : world) (fig : figure) (table : list detail_row),
      fst (pipeline df sd t w) = Ok (fig, table) ->
      snd (pipeline df sd t w) =
        World (<["axes.unicode_minus" := RcBool false]>
                 (<["font.sans-serif" := RcList ["Arial Unicode MS"]]> (rcParams w)))
              (app (figures w) [fig])).
Proof.
  split; [|split].
  - apply pipeline_world_independent.
  - intros w. apply pipeline_world_independent.
  - apply pipeline_completed_world.
Qed.

Lemma pipeline_deterministic_witness :
  length (figures (snd (pipeline [sample_row] (Some day1) (3 # 10) empty_world))) = 1.
Proof.
  destruct (pipeline_runs [sample_row] (Some day1) (3 # 10) sample_row
              sample_sentiments sample_attentions eq_refl eq_refl eq_refl)
    as [fig Hfig].
  rewrite (proj2 (proj2 (pipeline_deterministic [sample_row] (Some day1) (3 # 10)))
             empty_world fig _ (Hfig empty_world)).
  reflexivity.
Defined.

(** ** The points of the chart *)

Lemma index_lookup {A : Type} (l : list A) (i : nat) (x : A) :
  index l i = Ok x -> l !! i = Some x.
Proof.
  unfold index. destruct (l !! i); [intros [= ->]; reflexivity | discriminate].
Qed.

Lemma zip_lookup {A B : Type} (xs : list A) (ys : list B) (i : nat) (x : A) (y : B) :
  xs !! i = Some x -> ys !! i = Some y -> zip xs ys !! i = Some (x, y).
Proof.
  revert ys i. induction xs as [|a xs IH]; intros ys i Hx Hy.
  - destruct i; discriminate.
  - destruct ys as [|b ys]; [destruct i; discriminate|].
    destruct i as [|i]; simpl in *.
    + congruence.
    + apply IH; assumption.
Qed.

(** The labelling loop writes the categories in order, each at the pair
    of values that has its index. *)
Lemma annotate_from_labels (cats : list string) (xs ys : list cell) (i : nat) :
  i + length cats <= length xs -> i + length cats <= length ys ->
  exists anns : list annotation,
    acts_as (annotate_from i cats xs ys) (add_annotations anns) /\
    map an_text anns = cats /\
    map an_xy anns = take (length cats) (drop i (zip xs ys)) /\
    Forall (fun a => an_xytext a = (5, 5)%Z) anns.
Proof.
  revert i. induction cats as [|txt cats IH]; intros i Hx Hy; simpl in *.
  - exists []. split; [|repeat split; constructor].
    intros rc figs [? ? ? ? ? ? ? ? ? ? ?]. unfold ret, add_annotations.
    simpl. rewrite app_nil_r. reflexivity.
  - destruct (index_in_range xs i ltac:(lia)) as [x Ex].
    destruct (index_in_range ys i ltac:(lia)) as [y Ey].
    destruct (IH (S i) ltac:(lia) ltac:(lia)) as (anns & Hanns & Ht & Hxy & Hoff).
    exists (Annotation txt (x, y) (5, 5)%Z :: anns). split; [|split; [|split]].
    + rewrite Ex, Ey.
      apply acts_lift_Ok, acts_lift_Ok.
      unfold plt_annotate. intros rc figs f.
      unfold bind. rewrite on_gcf_snoc, Hanns. unfold add_annotations. simpl.
      rewrite <- app_assoc. reflexivity.
    + simpl. rewrite Ht. reflexivity.
    + simpl. rewrite Hxy.
      rewrite (drop_S (zip xs ys) (x, y) i)
        by (apply zip_lookup; apply index_lookup; assumption).
      reflexivity.
    + constructor; [reflexivity | exact Hoff].
Qed.

(** X8. The chart has one point per category, at the sentiment and the
    attention of that category in the selected row, unrounded, and one
    label per category, in the order of the category list, anchored at
    that point and shifted by (5, 5) points; the axes are named and the
    grid is on. *)
Theorem chart_points (t : Q) (d : date) (xs ys : list cell) (w : world) :
  length xs = 9 -> length ys = 9 ->
  exists fig : figure,
    fst (render_chart xs ys t (Some d) w) = Ok fig /\
    scatter_xy fig = zip xs ys /\
    map an_text (annotations fig) = risk_categories /\
    map an_xy (annotations fig) = zip xs ys /\
    Forall (fun a => an_xytext a = (5, 5)%Z) (annotations fig) /\
    xlabel fig = Some "情绪值" /\
    ylabel fig = Some "关注度" /\
    grid fig = true.
Proof.
  intros Hxs Hys.
  destruct (annotate_from_labels risk_categories xs ys 0)
    as (anns & Hanns & Htext & Hxy & Hoff);
    [rewrite Hxs; simpl; lia | rewrite Hys; simpl; lia |].
  assert (Hg : exists g : figure -> figure,
             acts_as (draw_chart xs ys t (Some d)) g /\
             scatter_xy (g empty_figure) = zip xs ys /\
             annotations (g empty_figure) = anns /\
             xlabel (g empty_figure) = Some "情绪值" /\
             ylabel (g empty_figure) = Some "关注度" /\
             grid (g empty_figure) = true).
  { eexists. split.
    - unfold draw_chart.
      eapply acts_seq; [apply acts_on_gcf|].
      eapply acts_seq; [exact Hanns|].
      do 10 (eapply acts_seq; [apply acts_on_gcf|]).
      apply acts_lift_Ok.
      eapply acts_seq; [apply acts_on_gcf|].
      apply acts_on_gcf.
    - repeat match goal with |- _ /\ _ => split end; vm_compute; reflexivity. }
  destruct Hg as (g & Hg & Hsc & Hann & Hxl & Hyl & Hgrid).
  destruct w as [rc figs]. exists (g empty_figure).
  rewrite (render_chart_step _ _ _ _ _ Hg), Hann.
  change (length risk_categories) with 9 in Hxy.
  rewrite drop_0, take_ge in Hxy by (rewrite length_zip; lia).
  repeat match goal with |- _ /\ _ => split end; try assumption; reflexivity.
Qed.

Lemma chart_points_witness :
  exists fig : figure,
    fst (render_chart sample_sentiments sample_attentions (3 # 10) (Some day1)
           empty_world) = Ok fig /\
    scatter_xy fig = zip sample_sentiments sample_attentions /\
    map an_text (annotations fig) = risk_categories.
Proof.
  destruct (chart_points (3 # 10) day1 sample_sentiments sample_attentions
              empty_world eq_refl eq_refl) as (fig & Hrun & Hsc & Htext & _).
  exists fig. repeat split; assumption.
Defined.

(** ** The rows of the table *)

Lemma risk_frame_inv (cats : list string) (xs ys : list cell) (r : risk_row) :
  In r (risk_frame cats xs ys) ->
  exists i : nat,
    cats !! i = Some (category r) /\ xs !! i = Some (sentiment r) /\
    ys !! i = Some (attention r).
Proof.
  revert xs ys. induction cats as [|c cats IH]; intros xs ys; [intros []|].
  destruct xs as [|x xs]; [intros []|]. destruct ys as [|y ys]; [intros []|].
  simpl. intros [<- | Hr].
  - exists 0. repeat split.
  - destruct (IH _ _ Hr) as (i & Hc & Hx & Hy). exists (S i). auto.
Qed.

Lemma risk_frame_categories (cats : list string) (xs ys : list cell) :
  length cats <= length xs -> length cats <= length ys ->
  map category (risk_frame cats xs ys) = cats.
Proof.
  revert xs ys. induction cats as [|c cats IH]; intros xs ys Hx Hy; [reflexivity|].
  destruct xs as [|x xs]; [simpl in Hx; lia|].
  destruct ys as [|y ys]; [simpl in Hy; lia|].
  simpl in *. f_equal. apply IH; lia.
Qed.

(** X9. The detail table has nine rows, one for each category.  Every
    row shows a category with the rounded sentiment and the rounded
    attention that this category has in the selected row, and the
    quadrant of these two rounded values. *)
Theorem detail_table_rows (t : Q) (xs ys : list cell) :
  length xs = 9 -> length ys = 9 ->
  length (detail_table t xs ys) = 9 /\
  Permutation (map shown_category (detail_table t xs ys)) risk_categories /\
  forall r : detail_row,
    In r (detail_table t xs ys) ->
    exists (i : nat) (x y : cell),
      risk_categories !! i = Some (shown_category r) /\
      xs !! i = Some x /\ ys !! i = Some y /\
      shown_sentiment r = round3 x /\
      shown_attention r = round3 y /\
      shown_quadrant r =
        get_quadrant t (RiskRow (shown_category r) (round3 x) (round3 y)).
Proof.
  intros Hxs Hys.
  assert (Hcats : Permutation (map shown_category (detail_table t xs ys))
                              risk_categories).
  { unfold detail_table. rewrite formatted_categories.
    eapply perm_trans;
      [apply Permutation_map, Permutation_sym, sort_values_perm|].
    rewrite risk_frame_categories by (rewrite ?Hxs, ?Hys; simpl; lia).
    apply Permutation_refl. }
  split; [|split; [exact Hcats|]].
  - rewrite <- (length_map shown_category).
    rewrite (Permutation_length Hcats). reflexivity.
  - intros r Hr. unfold detail_table, formatted_risk_data in Hr.
    rewrite map_map in Hr. apply in_map_iff in Hr as (raw & <- & Hraw).
    apply (Permutation_in _ (Permutation_sym (sort_values_perm _))) in Hraw.
    destruct (risk_frame_inv _ _ _ _ Hraw) as (i & Hc & Hx & Hy).
    exists i, (sentiment raw), (attention raw). simpl. auto 10.
Qed.

Lemma detail_table_rows_witness :
  length (detail_table (3 # 10) sample_sentiments sample_attentions) = 9.
Proof.
  apply (detail_table_rows (3 # 10) sample_sentiments sample_attentions
           eq_refl eq_refl).
Defined.

(** ** The threshold *)

Lemma cell_ge_mono (c : cell) (t t' : Q) :
  (t <= t')%Q -> cell_ge c (Num t') = true -> cell_ge c (Num t) = true.
Proof.
  destruct c as [a|]; [|intros _ H; simpl in H; discriminate H].
  rewrite !cell_ge_Num. intros; lra.
Qed.

Lemma cell_lt_mono (c : cell) (t t' : Q) :
  (t <= t')%Q -> cell_lt c (Num t) = true -> cell_lt c (Num t') = true.
Proof.
  destruct c as [a|]; [|intros _ H; simpl in H; discriminate H].
  rewrite !cell_lt_Num. intros; lra.
Qed.

(** X14. Moving the slider.  Lowering the threshold keeps in quadrants I
    and II the categories that were there, and raising it keeps in
    quadrants III and IV the categories that were there; a change of
    threshold never moves a category between the left and the right
    half. *)
Theorem threshold_monotone (t t' : Q) (row : risk_row) :
  (t <= t')%Q ->
  (get_quadrant t' row = label_I -> get_quadrant t row = label_I) /\
  (get_quadrant t' row = label_II -> get_quadrant t row = label_II) /\
  (get_quadrant t row = label_III -> get_quadrant t' row = label_III) /\
  (get_quadrant t row = label_IV -> get_quadrant t' row = label_IV).
Proof.
  intros Ht. unfold get_quadrant.
  pose proof (cell_ge_mono (attention row) t t' Ht) as Hge.
  pose proof (cell_lt_mono (attention row) t t' Ht) as Hlt.
  destruct (cell_ge (sentiment row) (Num 0)) eqn:Es,
           (cell_lt (sentiment row) (Num 0)) eqn:Esl,
           (cell_ge (attention row) (Num t')) eqn:Eg',
           (cell_ge (attention row) (Num t)) eqn:Eg,
           (cell_lt (attention row) (Num t)) eqn:El,
           (cell_lt (attention row) (Num t')) eqn:El';
    simpl; repeat split; intros H; try reflexivity; try discriminate H;
    try (specialize (Hge eq_refl); discriminate Hge);
    try (specialize (Hlt eq_refl); discriminate Hlt);
    exfalso; clear H Hge Hlt;
    destruct (attention row) as [a|]; simpl in *; try discriminate;
    try (rewrite Eg in El; discriminate); try (rewrite Eg' in El'; discriminate);
    destruct (sentiment row); simpl in *; try discriminate;
    try (rewrite Es in Esl; discriminate).
Qed.

Lemma threshold_monotone_witness :
  get_quadrant (1 # 10) (RiskRow "利率" (Num (4 # 10)) (Num (5 # 10))) = label_I.
Proof.
  apply (proj1 (threshold_monotone (1 # 10) (3 # 10)
                  (RiskRow "利率" (Num (4 # 10)) (Num (5 # 10)))
                  ltac:(discriminate))).
  reflexivity.
Defined.

(** ** The options of the selectbox *)

(** X15. The selectbox offers each date of the table once: its options
    have no repetition, and a date is among them exactly when some row of
    the table carries it. *)
Theorem selectbox_offers_each_date_once (df : DataFrame) :
  NoDup (available_dates df) /\
  forall d : date, d ∈ available_dates df <-> exists r, r ∈ df /\ obs_date r = d.
Proof. apply available_dates_distinct. Qed.
